(** * run-google-java-format.py: a shallow embedding of the driver script

    The script [bin/run-google-java-format.py] is a straight-line Python 2
    program: it locates two artifacts (downloading the missing ones), runs
    google-java-format over its arguments, removes the option-like
    arguments, and runs fixup-google-java-format.py over what is left.

    Everything the script does is an effect: probing and writing the file
    system, fetching URLs, printing, starting subprocesses, leaving through
    [sys.exit] or through an exception nobody catches.  The embedding keeps
    them all: the script is a computation in a state-and-exception monad
    over a [World] (the regular files on disk with their [st_mode], and the
    log of the effects performed so far), and the behaviour of the outside
    (which downloads succeed, what the subprocesses return) is an [Env]. *)

From Stdlib Require Import ZArith List String Ascii Bool Lia.
From stdpp Require Import base option gmap strings list.
Import ListNotations.

Local Open Scope Z_scope.
Local Open Scope string_scope.
Local Open Scope list_scope.

(** ** Python's string and [os.path] operations (posixpath) *)

Module Py.

(** [s.startswith(pre)] *)
Definition startswith (s pre : string) : bool := String.prefix pre s.

(** [s.endswith("/")] *)
Fixpoint endswith_slash (s : string) : bool :=
  match s with
  | EmptyString => false
  | String c EmptyString => Ascii.eqb c "/"
  | String _ t => endswith_slash t
  end.

(** ['/' in s] *)
Fixpoint has_slash (s : string) : bool :=
  match s with
  | EmptyString => false
  | String c t => Ascii.eqb c "/" || has_slash t
  end.

(** [s == '/' * len(s)] *)
Fixpoint all_slashes (s : string) : bool :=
  match s with
  | EmptyString => true
  | String c t => Ascii.eqb c "/" && all_slashes t
  end.

(** [p[:p.rfind('/') + 1]] *)
Fixpoint upto_last_slash (p : string) : string :=
  match p with
  | EmptyString => EmptyString
  | String c t =>
      if has_slash p then String c (upto_last_slash t) else EmptyString
  end.

(** [s.rstrip('/')] *)
Fixpoint rstrip_slash (s : string) : string :=
  match s with
  | EmptyString => EmptyString
  | String c t =>
      if all_slashes s then EmptyString else String c (rstrip_slash t)
  end.

(** [posixpath.dirname]:
<<
    i = p.rfind('/') + 1
    head = p[:i]
    if head and head != '/'*len(head):
        head = head.rstrip('/')
    return head
>> *)
Definition dirname (p : string) : string :=
  let head := upto_last_slash p in
  if negb (String.eqb head EmptyString) && negb (all_slashes head)
  then rstrip_slash head
  else head.

(** One round of the loop of [posixpath.join]. *)
Definition join_step (path b : string) : string :=
  if startswith b "/" then b
  else if String.eqb path EmptyString || endswith_slash path
       then String.append path b
       else String.append path (String.append "/" b).

(** [posixpath.join(a, *p)] *)
Definition join (a : string) (p : list string) : string :=
  fold_left join_step p a.

End Py.

(** ** The [stat] constants the script uses *)

Definition S_IXUSR : Z := 64.  (* 0o100 *)
Definition S_IXGRP : Z := 8.   (* 0o010 *)
Definition S_IXOTH : Z := 1.   (* 0o001 *)

(** The bits [chmod(2)] can change: permissions, set-id and sticky bits
    (0o7777).  The file-type bits of [st_mode] are not its to change. *)
Definition S_IMODE_MASK : Z := 4095.

(** ** The outside world *)

(** What the script cannot decide itself. *)
Record Env := {
  (** [os.path.abspath(__file__)] *)
  script_path : string;
  (** [sys.argv] *)
  sys_argv : list string;
  (** [urllib.urlretrieve(url, path)]: [Some m] when the file is written,
      [m] being the [st_mode] it is created with; [None] when the fetch or
      the write raises [IOError]. *)
  urlretrieve_result : string -> string -> option Z;
  (** [subprocess.call(args)]: [Some rc] when the child ran and returned
      [rc]; [None] when it could not be started ([OSError]). *)
  call_result : list string -> option Z
}.

(** Effects, as they are logged. *)
Inductive Event :=
| IsFile (path : string) (found : bool)
| UrlRetrieve (url path : string) (ok : bool)
| Chmod (path : string) (mode : Z)
| Print (args : list string)
| Call (args : list string) (status : option Z).

Record World := {
  (** the regular files and their [st_mode] *)
  disk : gmap string Z;
  (** the effects performed, oldest first *)
  events : list Event
}.

(** The ways a Python program stops early. *)
Inductive Exn :=
| IOError
| OSError
| SystemExit (code : Z).

(** ** The monad of the script *)

Definition M (A : Type) : Type := World -> World * (Exn + A).

Definition pure {A} (a : A) : M A := fun w => (w, inr a).

#[global] Instance M_ret : MRet M := @pure.
#[global] Instance M_bind : MBind M := fun A B f m w =>
  match m w with
  | (w', inr a) => f a w'
  | (w', inl e) => (w', inl e)
  end.

Definition raise {A} (e : Exn) : M A := fun w => (w, inl e).

Definition log (ev : Event) : M unit := fun w =>
  ({| disk := disk w; events := events w ++ [ev] |}, inr tt).

Definition get_disk : M (gmap string Z) := fun w => (w, inr (disk w)).

Definition put_disk (d : gmap string Z) : M unit := fun w =>
  ({| disk := d; events := events w |}, inr tt).

(** [if c: body] *)
Definition when (c : bool) (body : M unit) : M unit :=
  if c then body else pure tt.

(** ** The library calls of the script *)

(** [os.path.isfile(path)] *)
Definition isfile (path : string) : M bool :=
  d ← get_disk;
  let found := bool_decide (is_Some (d !! path)) in
  log (IsFile path found);;
  pure found.

(** [urllib.urlretrieve(url, path)] *)
Definition urlretrieve (e : Env) (url path : string) : M unit :=
  match urlretrieve_result e url path with
  | Some m =>
      d ← get_disk;
      put_disk (<[path := m]> d);;
      log (UrlRetrieve url path true)
  | None =>
      log (UrlRetrieve url path false);;
      raise IOError
  end.

(** [os.stat(path).st_mode] *)
Definition stat_st_mode (path : string) : M Z :=
  d ← get_disk;
  match d !! path with
  | Some m => pure m
  | None => raise OSError
  end.

(** [os.chmod(path, mode)] *)
Definition chmod (path : string) (mode : Z) : M unit :=
  d ← get_disk;
  match d !! path with
  | Some old =>
      put_disk (<[path := Z.lor (Z.land old (Z.lnot S_IMODE_MASK))
                                (Z.land mode S_IMODE_MASK)]> d);;
      log (Chmod path mode)
  | None => raise OSError
  end.

(** [print(...)] *)
Definition print (args : list string) : M unit := log (Print args).

(** [sys.exit(code)] *)
Definition sys_exit {A} (code : Z) : M A := raise (SystemExit code).

(** [subprocess.call(args)] *)
Definition subprocess_call (e : Env) (args : list string) : M Z :=
  log (Call args (call_result e args));;
  match call_result e args with
  | Some rc => pure rc
  | None => raise OSError
  end.

(** ** The script *)

Definition debug : bool := false.

Definition script_dir (e : Env) : string := Py.dirname (script_path e).

Definition fixup_py (e : Env) : string :=
  Py.join (script_dir e) ["fixup-google-java-format.py"].

Definition gjf_jar_name : string := "google-java-format-1.0-all-deps.jar".

Definition gjf_jar_url : string :=
  "https://github.com/google/google-java-format/releases/download/google-java-format-1.0/google-java-format-1.0-all-deps.jar".

Definition fixup_py_url : string :=
  "https://raw.githubusercontent.com/mernst/plume-lib/master/bin/fixup-google-java-format.py".

Definition usage_message : string :=
  "run-google-java-format.py expects 1 or more filenames as arguments".

Definition fixup_error_message : string :=
  "Error when running fixup-google-java-format.py".

(** Lines 25-32, [# Set gjf_jar_path]. *)
Definition set_gjf_jar_path (e : Env) : M string :=
  b1 ← isfile (Py.join (script_dir e) [gjf_jar_name]);
  if b1 : bool then pure (Py.join (script_dir e) [gjf_jar_name])
  else
    b2 ← isfile (Py.join (Py.dirname (script_dir e)) ["lib"; gjf_jar_name]);
    if b2 : bool then pure (Py.join (Py.dirname (script_dir e)) ["lib"; gjf_jar_name])
    else
      let gjf_jar_path := Py.join (script_dir e) [gjf_jar_name] in
      urlretrieve e gjf_jar_url gjf_jar_path;;
      pure gjf_jar_path.

(** Lines 34-41. *)
Definition fetch_fixup_py (e : Env) : M unit :=
  b ← isfile (fixup_py e);
  when (negb b)
    (urlretrieve e fixup_py_url (fixup_py e);;
     st_mode ← stat_st_mode (fixup_py e);
     chmod (fixup_py e)
       (Z.lor (Z.lor (Z.lor st_mode S_IXUSR) S_IXGRP) S_IXOTH)).

(** [[f for f in files if not f.startswith("--")]] (line 61) *)
Definition remove_command_line_arguments (files : list string) : list string :=
  List.filter (fun f => negb (Py.startswith f "--")) files.

(** [not files] *)
Definition is_empty_list {A} (l : list A) : bool :=
  match l with [] => true | _ :: _ => false end.

(** Lines 43-70. *)
Definition format_files (e : Env) (gjf_jar_path : string) : M unit :=
  when debug
    (print ["script_dir:"; script_dir e];;
     print ["fixup_py: "; fixup_py e];;
     print ["gjf_jar_path: "; gjf_jar_path]);;
  let files := drop 1 (sys_argv e) in
  when (Nat.eqb (length files) 0)
    (print [usage_message];;
     sys_exit 1);;
  result ← subprocess_call e
    (["java"; "-jar"; gjf_jar_path; "--replace"; "--sort-imports=also"] ++ files);
  let files := remove_command_line_arguments files in
  when (is_empty_list files) (sys_exit 0);;
  when debug (print ["Running fixup-google-java-format.py"]);;
  result ← subprocess_call e (fixup_py e :: files);
  when (negb (Z.eqb result 0))
    (print [fixup_error_message];;
     sys_exit result).

(** The whole script, top to bottom. *)
Definition script (e : Env) : M unit :=
  gjf_jar_path ← set_gjf_jar_path e;
  fetch_fixup_py e;;
  format_files e gjf_jar_path.

(** ** Running the script *)

Definition initial_world (d : gmap string Z) : World :=
  {| disk := d; events := [] |}.

Definition run (e : Env) (d : gmap string Z) : World * (Exn + unit) :=
  script e (initial_world d).

(** The code the interpreter is left with: the argument of [sys.exit],
    1 for an exception nobody caught, 0 at the end of the script.  It is
    an integer of any size and sign ([subprocess.call] returns [-N] for
    a child killed by signal [N], and line 70 hands that to [sys.exit]);
    it is not yet the exit status of the process, see [wait_status]. *)
Definition exit_status (r : Exn + unit) : Z :=
  match r with
  | inr _ => 0
  | inl (SystemExit code) => code
  | inl _ => 1
  end.

(** The exit status of the process, as its parent sees it: the low
    eight bits of that code ([sys.exit(-9)] leaves 247). *)
Definition wait_status (code : Z) : Z := Z.land code 255.

Definition trace (e : Env) (d : gmap string Z) : list Event :=
  events (run e d).1.

Definition status (e : Env) (d : gmap string Z) : Z :=
  exit_status (run e d).2.

(** ** Vocabulary for the statements *)

(** The two places the formatter archive is looked for. *)
Definition jar_in_script_dir (e : Env) : string :=
  Py.join (script_dir e) [gjf_jar_name].

Definition jar_in_lib (e : Env) : string :=
  Py.join (Py.dirname (script_dir e)) ["lib"; gjf_jar_name].

(** The command line of the formatter step (line 53). *)
Definition formatter_args (gjf_jar_path : string) (files : list string)
  : list string :=
  ["java"; "-jar"; gjf_jar_path; "--replace"; "--sort-imports=also"] ++ files.

Definition with_events (w : World) (evs : list Event) : World :=
  {| disk := disk w; events := events w ++ evs |}.

Definition with_file (w : World) (path : string) (m : Z) : World :=
  {| disk := <[path := m]> (disk w); events := events w |}.

(** What line 41 leaves as the mode of a file whose mode was [m]. *)
Definition chmod_x (m : Z) : Z :=
  Z.lor (Z.land m (Z.lnot S_IMODE_MASK))
        (Z.land (Z.lor (Z.lor (Z.lor m S_IXUSR) S_IXGRP) S_IXOTH) S_IMODE_MASK).

(** The effects of artifact resolution: probes, downloads, chmod. *)
Definition is_resolution (ev : Event) : bool :=
  match ev with
  | IsFile _ _ | UrlRetrieve _ _ _ | Chmod _ _ => true
  | Print _ | Call _ _ => false
  end.

(** "The fixup subprocess returned [r]" in the run of [e] on disk [d]. *)
Definition fixup_returned (e : Env) (d : gmap string Z) (r : Z) : Prop :=
  exists files, In (Call (fixup_py e :: files) (Some r)) (trace e d).

(** "The formatter subprocess returned [r]". *)
Definition formatter_returned (e : Env) (d : gmap string Z) (r : Z) : Prop :=
  exists jar files, In (Call (formatter_args jar files) (Some r)) (trace e d).

(** Some download raised [IOError]. *)
Definition download_failed (tr : list Event) : Prop :=
  exists url path, In (UrlRetrieve url path false) tr.

(** Some subprocess could not be started. *)
Definition launch_failed (tr : list Event) : Prop :=
  exists args, In (Call args None) tr.

(** The file arguments, [sys.argv[1:]]. *)
Definition file_arguments (e : Env) : list string := drop 1 (sys_argv e).

(** An argument the filter of line 61 takes for an option. *)
Definition flag_like (f : string) : Prop := Py.startswith f "--" = true.

(** Nothing but artifact resolution has happened. *)
Definition resolution_only (evs : list Event) : Prop :=
  Forall (fun ev => is_resolution ev = true) evs.

(** ** The spec's [resolve], for comparison with lines 26-41

    These two definitions follow the words of the specification ("checks
    each candidate directory in order for an existing file matching the
    artifact name; returns the first match"); the script has no such
    function, and the theorems below compare its two inlined look-ups with
    them. *)

Fixpoint spec_first_match (d : gmap string Z) (name : string)
    (candidate_dirs : list string) : option string :=
  match candidate_dirs with
  | [] => None
  | dir :: rest =>
      if bool_decide (is_Some (d !! Py.join dir [name]))
      then Some (Py.join dir [name])
      else spec_first_match d name rest
  end.

(** The probes such a search makes: one per candidate, up to and
    including the first that holds the artifact. *)
Fixpoint spec_probes (d : gmap string Z) (name : string)
    (candidate_dirs : list string) : list Event :=
  match candidate_dirs with
  | [] => []
  | dir :: rest =>
      if bool_decide (is_Some (d !! Py.join dir [name]))
      then [IsFile (Py.join dir [name]) true]
      else IsFile (Py.join dir [name]) false :: spec_probes d name rest
  end.

Definition fixup_py_name : string := "fixup-google-java-format.py".

(** The directories each artifact is looked for in, as the script has
    them. *)
Definition gjf_jar_candidates (e : Env) : list string :=
  [script_dir e; Py.join (Py.dirname (script_dir e)) ["lib"]].

Definition fixup_py_candidates (e : Env) : list string :=
  [script_dir e].

(** ** Sample invocations *)

Module Sample.

Definition script : string :=
  "/home/u/plume-lib/bin/run-google-java-format.py".

Definition bin_jar : string :=
  "/home/u/plume-lib/bin/google-java-format-1.0-all-deps.jar".
Definition bin_fixup : string :=
  "/home/u/plume-lib/bin/fixup-google-java-format.py".
Definition lib_fixup : string :=
  "/home/u/plume-lib/lib/fixup-google-java-format.py".

(** Both artifacts installed next to the script. *)
Definition installed : gmap string Z :=
  {[ bin_jar := 33188; bin_fixup := 33261 ]}.

(** The archive next to the script, the fixup program only in ../lib. *)
Definition fixup_in_lib : gmap string Z :=
  {[ bin_jar := 33188; lib_fixup := 33261 ]}.

(** Downloads create files with mode 0o100644. *)
Definition online (_ _ : string) : option Z := Some 33188.
Definition offline (_ _ : string) : option Z := None.

(** The formatter returns [rf], every other program [r]. *)
Definition children (rf r : Z) (args : list string) : option Z :=
  match args with
  | "java" :: _ => Some rf
  | _ => Some r
  end.

Definition invocation (args : list string)
    (net : string -> string -> option Z)
    (procs : list string -> option Z) : Env :=
  {| script_path := script;
     sys_argv := "run-google-java-format.py" :: args;
     urlretrieve_result := net;
     call_result := procs |}.

End Sample.

(** ** More vocabulary: what a run leaves behind *)

(** The archive the formatter is given: the first candidate that holds
    one, and otherwise the download target. *)
Definition resolved_jar (e : Env) (d : gmap string Z) : string :=
  match spec_first_match d gjf_jar_name (gjf_jar_candidates e) with
  | Some p => p
  | None => jar_in_script_dir e
  end.

(** The disk at the end of the run. *)
Definition final_disk (e : Env) (d : gmap string Z) : gmap string Z :=
  disk (run e d).1.

(** A path with no ['/'] in it. *)
Definition plain_name (s : string) : Prop := Py.has_slash s = false.

(** ** Running the monad *)

Ltac unfold_monad :=
  unfold mbind, M_bind, mret, M_ret, pure, raise, sys_exit, log, print,
    get_disk, put_disk, when in *.

Ltac norm_events :=
  unfold with_events, with_file; simpl;
  repeat rewrite <- app_assoc; simpl.

(** *** Lines 25-32 *)
Lemma set_gjf_jar_path_run e w :
  set_gjf_jar_path e w =
  if bool_decide (is_Some (disk w !! jar_in_script_dir e)) then
    (with_events w [IsFile (jar_in_script_dir e) true],
     inr (jar_in_script_dir e))
  else if bool_decide (is_Some (disk w !! jar_in_lib e)) then
    (with_events w [IsFile (jar_in_script_dir e) false;
                    IsFile (jar_in_lib e) true],
     inr (jar_in_lib e))
  else
    match urlretrieve_result e gjf_jar_url (jar_in_script_dir e) with
    | Some m =>
        (with_events (with_file w (jar_in_script_dir e) m)
           [IsFile (jar_in_script_dir e) false;
            IsFile (jar_in_lib e) false;
            UrlRetrieve gjf_jar_url (jar_in_script_dir e) true],
         inr (jar_in_script_dir e))
    | None =>
        (with_events w
           [IsFile (jar_in_script_dir e) false;
            IsFile (jar_in_lib e) false;
            UrlRetrieve gjf_jar_url (jar_in_script_dir e) false],
         inl IOError)
    end.
Proof.
  unfold set_gjf_jar_path, isfile, urlretrieve.
  fold (jar_in_script_dir e) (jar_in_lib e).
  unfold_monad. simpl.
  destruct (bool_decide (is_Some (disk w !! jar_in_script_dir e))); simpl.
  - reflexivity.
  - destruct (bool_decide (is_Some (disk w !! jar_in_lib e))); simpl.
    + norm_events. reflexivity.
    + destruct (urlretrieve_result e gjf_jar_url (jar_in_script_dir e));
        norm_events; reflexivity.
Qed.

(** *** Lines 34-41 *)
Lemma fetch_fixup_py_run e w :
  fetch_fixup_py e w =
  if bool_decide (is_Some (disk w !! fixup_py e)) then
    (with_events w [IsFile (fixup_py e) true], inr tt)
  else
    match urlretrieve_result e fixup_py_url (fixup_py e) with
    | Some m =>
        (with_events (with_file w (fixup_py e) (chmod_x m))
           [IsFile (fixup_py e) false;
            UrlRetrieve fixup_py_url (fixup_py e) true;
            Chmod (fixup_py e)
              (Z.lor (Z.lor (Z.lor m S_IXUSR) S_IXGRP) S_IXOTH)],
         inr tt)
    | None =>
        (with_events w
           [IsFile (fixup_py e) false;
            UrlRetrieve fixup_py_url (fixup_py e) false],
         inl IOError)
    end.
Proof.
  unfold fetch_fixup_py, isfile, urlretrieve, stat_st_mode, chmod.
  unfold_monad. simpl.
  destruct (bool_decide (is_Some (disk w !! fixup_py e))); simpl.
  - reflexivity.
  - destruct (urlretrieve_result e fixup_py_url (fixup_py e)); simpl.
    + rewrite lookup_insert_eq. simpl. rewrite lookup_insert_eq. simpl.
      rewrite insert_insert_eq. norm_events. reflexivity.
    + norm_events. reflexivity.
Qed.

(** *** Lines 43-70 *)
Lemma format_files_run e jar w :
  format_files e jar w =
  let files := file_arguments e in
  let kept := remove_command_line_arguments files in
  if is_empty_list files then
    (with_events w [Print [usage_message]], inl (SystemExit 1))
  else
    match call_result e (formatter_args jar files) with
    | None =>
        (with_events w [Call (formatter_args jar files) None], inl OSError)
    | Some rf =>
        if is_empty_list kept then
          (with_events w [Call (formatter_args jar files) (Some rf)],
           inl (SystemExit 0))
        else
          match call_result e (fixup_py e :: kept) with
          | None =>
              (with_events w [Call (formatter_args jar files) (Some rf);
                              Call (fixup_py e :: kept) None],
               inl OSError)
          | Some r =>
              if Z.eqb r 0 then
                (with_events w [Call (formatter_args jar files) (Some rf);
                                Call (fixup_py e :: kept) (Some r)],
                 inr tt)
              else
                (with_events w [Call (formatter_args jar files) (Some rf);
                                Call (fixup_py e :: kept) (Some r);
                                Print [fixup_error_message]],
                 inl (SystemExit r))
          end
    end.
Proof.
  unfold format_files, subprocess_call, formatter_args, file_arguments, debug.
  unfold_monad. cbv zeta.
  destruct (drop 1 (sys_argv e)) as [|f files]; [reflexivity|].
  cbn [length Nat.eqb is_empty_list].
  cbn beta iota.
  destruct (call_result e _) as [rf|]; [|reflexivity].
  cbn beta iota.
  destruct (remove_command_line_arguments (f :: files)) as [|k kept];
    [reflexivity|].
  cbn [is_empty_list]. cbn beta iota.
  destruct (call_result e (fixup_py e :: k :: kept)) as [r|];
    [|norm_events; reflexivity].
  cbn beta iota.
  destruct (Z.eqb r 0); cbn [negb]; cbn beta iota; norm_events; reflexivity.
Qed.

(** *** The script as its three blocks *)
Lemma run_blocks e d :
  run e d =
  match set_gjf_jar_path e (initial_world d) with
  | (w1, inr jar) =>
      match fetch_fixup_py e w1 with
      | (w2, inr _) => format_files e jar w2
      | (w2, inl x) => (w2, inl x)
      end
  | (w1, inl x) => (w1, inl x)
  end.
Proof. reflexivity. Qed.

(** ** Facts about the paths *)

Lemma length_append s t :
  String.length (String.append s t) = (String.length s + String.length t)%nat.
Proof. induction s as [|c s IH]; simpl; [reflexivity | now rewrite IH]. Qed.

Lemma join_step_length path b :
  Py.startswith b "/" = false ->
  (String.length b <= String.length (Py.join_step path b))%nat.
Proof.
  intros Hb. unfold Py.join_step. rewrite Hb.
  destruct (_ || _); repeat rewrite length_append; simpl; lia.
Qed.

Lemma fixup_py_not_java e : fixup_py e <> "java".
Proof.
  intros H. apply (f_equal String.length) in H.
  pose proof (join_step_length (script_dir e) fixup_py_name eq_refl) as L.
  unfold fixup_py, Py.join in H. simpl fold_left in H.
  unfold fixup_py_name in L. rewrite H in L. simpl in L. lia.
Qed.

Lemma fixup_call_not_formatter_call e files jar files' :
  fixup_py e :: files <> formatter_args jar files'.
Proof.
  unfold formatter_args. simpl. intros H. inversion H as [[H1 H2]].
  exact (fixup_py_not_java e H1).
Qed.

(** ** The mode bits after line 41 *)

Lemma testbit_S_IMODE_MASK i : 0 <= i -> Z.testbit S_IMODE_MASK i = Z.ltb i 12.
Proof.
  intros Hi. change S_IMODE_MASK with (Z.ones 12).
  destruct (Z.ltb_spec i 12).
  - apply Z.ones_spec_low. lia.
  - apply Z.ones_spec_high. lia.
Qed.

Lemma chmod_x_lor m : chmod_x m = Z.lor m 73.
Proof.
  apply Z.bits_inj'. intros i Hi. unfold chmod_x.
  rewrite !Z.lor_spec, !Z.land_spec, !Z.lor_spec, Z.lnot_spec by lia.
  rewrite testbit_S_IMODE_MASK by lia.
  change S_IXUSR with (2 ^ 6). change S_IXGRP with (2 ^ 3).
  change S_IXOTH with (2 ^ 0). change 73 with (Z.lor (Z.lor (2^6) (2^3)) (2^0)).
  rewrite !Z.lor_spec.
  rewrite !Z.pow2_bits_eqb by lia.
  destruct (Z.testbit m i), (Z.ltb_spec i 12), (Z.eqb_spec 6 i),
    (Z.eqb_spec 3 i), (Z.eqb_spec 0 i); simpl; try reflexivity; lia.
Qed.

Lemma chmod_x_bits m i :
  0 <= i ->
  Z.testbit (chmod_x m) i =
  Z.testbit m i || Z.eqb i 6 || Z.eqb i 3 || Z.eqb i 0.
Proof.
  intros Hi. rewrite chmod_x_lor.
  change 73 with (Z.lor (Z.lor (2^6) (2^3)) (2^0)).
  rewrite !Z.lor_spec, !Z.pow2_bits_eqb by lia.
  rewrite (Z.eqb_sym 6 i), (Z.eqb_sym 3 i), (Z.eqb_sym 0 i).
  destruct (Z.testbit m i), (Z.eqb i 6), (Z.eqb i 3), (Z.eqb i 0); reflexivity.
Qed.

(** A status a child can exit with is passed on to the parent as it is. *)
Lemma wait_status_small code : 0 <= code < 256 -> wait_status code = code.
Proof.
  intros H. unfold wait_status. change 255 with (Z.ones 8).
  rewrite Z.land_ones by lia. apply Z.mod_small. simpl. lia.
Qed.

(** ** The shape of a run *)

Lemma resolution_only_app evs evs' :
  resolution_only evs -> resolution_only evs' -> resolution_only (evs ++ evs').
Proof. apply Forall_app_2. Qed.

Lemma resolution_only_no_call evs args st :
  resolution_only evs -> ~ In (Call args st) evs.
Proof.
  intros Hall Hin. unfold resolution_only in Hall.
  rewrite List.Forall_forall in Hall. specialize (Hall _ Hin). discriminate.
Qed.

Lemma resolution_only_no_print evs args :
  resolution_only evs -> ~ In (Print args) evs.
Proof.
  intros Hall Hin. unfold resolution_only in Hall.
  rewrite List.Forall_forall in Hall. specialize (Hall _ Hin). discriminate.
Qed.

(** Either both artifacts are resolved, with no failed download, and the
    run goes on with lines 43-70; or a download raised [IOError] and the
    run ends there.  In both cases nothing but resolution has happened. *)
Lemma resolution_shape e d :
  (exists w jar,
      run e d = format_files e jar w /\
      resolution_only (events w) /\ ~ download_failed (events w)) \/
  (exists w,
      run e d = (w, inl IOError) /\
      resolution_only (events w) /\ download_failed (events w)).
Proof.
  rewrite run_blocks, set_gjf_jar_path_run.
  assert (Hno : forall evs : list Event,
             (forall url path, ~ In (UrlRetrieve url path false) evs) ->
             ~ download_failed evs).
  { intros evs H (url & path & Hin). exact (H _ _ Hin). }
  repeat first [ rewrite fetch_fixup_py_run | progress cbn beta iota
               | case_bool_decide | case_match ];
    simplify_eq;
    ((left; eexists _, _; split; [reflexivity|]; split;
      [ repeat constructor
      | apply Hno; simpl; intros url path Hin; intuition discriminate ])
     || (right; eexists; split; [reflexivity|]; split;
      [ repeat constructor
      | eexists _, _; simpl; eauto 10 ])).
Qed.

Ltac format_cases :=
  rewrite format_files_run; cbv zeta;
  repeat match goal with
    | |- context [is_empty_list ?l] => destruct l eqn:?; cbn [is_empty_list]
    | |- context [call_result ?e ?a] => destruct (call_result e a) eqn:?
    | |- context [Z.eqb ?r 0] => destruct (Z.eqb_spec r 0)
    end.

(** Membership of an event in the log of a finished run: either in what
    resolution logged, or among the explicit events of lines 43-70. *)
Ltac in_events H :=
  unfold with_events in H; cbn [events fst snd] in H;
  apply in_app_or in H; destruct H as [H|H];
  [ exfalso;
    match goal with
    | Hres : resolution_only ?l |- _ =>
        first [ exact (resolution_only_no_call _ _ _ Hres H)
              | exact (resolution_only_no_print _ _ Hres H) ]
    end
  | simpl in H ].

Ltac event_eqs :=
  repeat match goal with
    | H : _ \/ _ |- _ => destruct H
    | H : False |- _ => destruct H
    | H : Print _ = Call _ _ |- _ => discriminate H
    | H : Call _ _ = Print _ |- _ => discriminate H
    | H : "java" = fixup_py ?e |- _ =>
        exfalso; exact (fixup_py_not_java e (eq_sym H))
    | H : fixup_py ?e = "java" |- _ =>
        exfalso; exact (fixup_py_not_java e H)
    | H : Call _ _ = Call _ _ |- _ =>
        first [ discriminate H | injection H; clear H; intros ]
    | H : formatter_args _ _ = fixup_py _ :: _ |- _ =>
        exfalso; exact (fixup_call_not_formatter_call _ _ _ _ (eq_sym H))
    | H : fixup_py _ :: _ = formatter_args _ _ |- _ =>
        exfalso; exact (fixup_call_not_formatter_call _ _ _ _ H)
    | H : _ :: _ = _ :: _ |- _ => injection H; clear H; intros
    | H : Some _ = Some _ |- _ => injection H; clear H; intros
    | H : Some _ = None |- _ => discriminate H
    | H : None = Some _ |- _ => discriminate H
    end; subst.

(** The code of [sys.exit] after a failed fixup step, for any integer
    [subprocess.call] may return. *)
Lemma fixup_failure_exit_code e d r :
  fixup_returned e d r -> r <> 0 ->
  status e d = r /\
  (run e d).2 = inl (SystemExit r) /\
  exists before,
    trace e d =
    before ++
    [Call (fixup_py e :: remove_command_line_arguments (file_arguments e))
       (Some r);
     Print [fixup_error_message]].
Proof.
  intros [files Hin] Hr. unfold status, trace in *.
  destruct (resolution_shape e d) as
    [(w & jar & Hrun & Hres & _) | (w & Hrun & Hres & _)];
    rewrite Hrun in *.
  - revert Hin. format_cases; intros Hin; in_events Hin; event_eqs;
      try contradiction.
    repeat split.
    unfold with_events. cbn [events fst].
    match goal with
    | |- exists before, ?l ++ ?a :: ?rest = _ =>
        exists (l ++ [a]); rewrite <- app_assoc
    end.
    reflexivity.
  - exfalso. exact (resolution_only_no_call _ _ _ Hres Hin).
Qed.

(** C1. When the fixup subprocess returns a non-zero exit status [r]
    (an exit status is a value from 1 to 255), the driver prints its
    error message as the last thing it does and leaves through
    [sys.exit(r)]: the exit status of the driver's process is [r],
    whatever the formatter returned. *)
Theorem fixup_failure_is_the_exit_status e d r :
  fixup_returned e d r -> 0 < r < 256 ->
  wait_status (status e d) = r /\
  (run e d).2 = inl (SystemExit r) /\
  exists before,
    trace e d =
    before ++
    [Call (fixup_py e :: remove_command_line_arguments (file_arguments e))
       (Some r);
     Print [fixup_error_message]].
Proof.
  intros Hfix Hr.
  destruct (fixup_failure_exit_code e d r Hfix ltac:(lia))
    as (Hstatus & Hexit & Htrace).
  split; [|split; [exact Hexit | exact Htrace]].
  rewrite Hstatus. apply wait_status_small. lia.
Qed.

(** The formatter fails with 1, the fixup program with 3: the driver
    exits with 3. *)
Lemma fixup_failure_witness :
  wait_status
    (status (Sample.invocation ["A.java"] Sample.online (Sample.children 1 3))
       ∅)
  = 3.
Proof.
  apply (fixup_failure_is_the_exit_status
           (Sample.invocation ["A.java"] Sample.online (Sample.children 1 3))
           ∅ 3).
  - exists ["A.java"]. vm_compute. tauto.
  - lia.
Defined.

(** Outside that range the two differ: a fixup program killed by signal
    9 makes [subprocess.call] return -9, the driver calls [sys.exit(-9)],
    and the exit status of its process is 247. *)
Example fixup_killed_by_signal :
  let e := Sample.invocation ["A.java"] Sample.online (Sample.children 0 (-9)) in
  (run e ∅).2 = inl (SystemExit (-9)) /\ wait_status (status e ∅) = 247.
Proof. split; reflexivity. Qed.

(** C2. In a run in which the formatter subprocess returns a status [rf]
    other than zero: the fixup step is still started whenever the filter
    of line 61 leaves it an argument; a failure of the driver then comes
    from that step, never from [rf]; and when the fixup subprocess
    returns zero the driver reaches the end of the script, with exit
    status zero, the fixup call coming right after the failed formatter
    call as the last thing the driver does. *)
Theorem formatter_failure_is_tolerated e d rf :
  formatter_returned e d rf -> rf <> 0 ->
  (fixup_returned e d 0 ->
   status e d = 0 /\
   (run e d).2 = inr tt /\
   exists before jar,
     trace e d =
     before ++
     [Call (formatter_args jar (file_arguments e)) (Some rf);
      Call (fixup_py e :: remove_command_line_arguments (file_arguments e))
        (Some 0)]) /\
  (remove_command_line_arguments (file_arguments e) <> [] ->
   exists st,
     In (Call (fixup_py e :: remove_command_line_arguments (file_arguments e))
           st) (trace e d)) /\
  (status e d <> 0 ->
   exists st,
     st <> Some 0 /\
     In (Call (fixup_py e :: remove_command_line_arguments (file_arguments e))
           st) (trace e d)).
Proof.
  intros (jar' & files' & Hf) Hrf. unfold fixup_returned, status, trace in *.
  destruct (resolution_shape e d) as
    [(w & jar & Hrun & Hres & _) | (w & Hrun & Hres & _)];
    rewrite Hrun in *.
  - revert Hf. format_cases; intros Hf; in_events Hf; event_eqs;
      unfold with_events; cbn [events fst snd exit_status].
    + (* no argument is left for the fixup step *)
      split; [|split].
      * intros [files Hin]. in_events Hin. event_eqs.
      * intros Hne. exfalso. apply Hne. reflexivity.
      * intros Hne. exfalso. apply Hne. reflexivity.
    + (* the fixup program returned 0 *)
      split; [|split].
      * intros _. repeat split. eexists (events w), _. reflexivity.
      * intros _. eexists. apply in_or_app. right. right. left. reflexivity.
      * intros Hne. exfalso. apply Hne. reflexivity.
    + (* the fixup program returned something else *)
      split; [|split].
      * intros [files Hin]. in_events Hin. event_eqs. contradiction.
      * intros _. eexists. apply in_or_app. right. right. left. reflexivity.
      * intros _. eexists. split; [|apply in_or_app; right; right; left;
                                    reflexivity].
        intros H. injection H as H. contradiction.
    + (* the fixup program could not be started *)
      split; [|split].
      * intros [files Hin]. in_events Hin. event_eqs.
      * intros _. eexists. apply in_or_app. right. right. left. reflexivity.
      * intros _. exists None. split; [discriminate|].
        apply in_or_app. right. right. left. reflexivity.
  - exfalso. exact (resolution_only_no_call _ _ _ Hres Hf).
Qed.

(** The formatter fails with 1, the fixup program succeeds: the driver
    exits with 0. *)
Lemma formatter_failure_witness :
  status (Sample.invocation ["A.java"] Sample.online (Sample.children 1 0)) ∅
  = 0.
Proof.
  refine (proj1 (proj1 (formatter_failure_is_tolerated
           (Sample.invocation ["A.java"] Sample.online (Sample.children 1 0))
           ∅ 1 _ _) _)).
  - exists Sample.bin_jar, ["A.java"]. vm_compute. tauto.
  - lia.
  - exists ["A.java"]. vm_compute. tauto.
Defined.

(** C3, as stated, fails: with no arguments, nothing installed and no
    network, the download of the archive raises [IOError] at line 32, and
    the driver stops there without having printed the usage message. *)
Lemma usage_message_counterexample :
  let e := Sample.invocation [] Sample.offline (Sample.children 0 0) in
  file_arguments e = [] /\
  ~ In (Print [usage_message]) (trace e ∅) /\
  trace e ∅ =
  [IsFile Sample.bin_jar false;
   IsFile "/home/u/plume-lib/lib/google-java-format-1.0-all-deps.jar" false;
   UrlRetrieve gjf_jar_url Sample.bin_jar false] /\
  (run e ∅).2 = inl IOError.
Proof.
  vm_compute. repeat split; try reflexivity.
  intros H. repeat (destruct H as [H|H]; [discriminate H|]). exact H.
Qed.

(** C3, amended.  With no file argument the driver exits with status 1
    and starts no subprocess.  When no download fails it prints the usage
    message, as the last thing it does, and leaves through [sys.exit(1)];
    when a download fails it stops on the [IOError], before line 48, with
    no message. *)
Theorem no_file_argument_exit_1 e d :
  file_arguments e = [] ->
  status e d = 1 /\
  (forall args st, ~ In (Call args st) (trace e d)) /\
  (~ download_failed (trace e d) ->
   (run e d).2 = inl (SystemExit 1) /\
   exists before,
     resolution_only before /\
     trace e d = before ++ [Print [usage_message]]) /\
  (download_failed (trace e d) ->
   (run e d).2 = inl IOError /\ resolution_only (trace e d)).
Proof.
  intros Hfiles. unfold status, trace.
  destruct (resolution_shape e d) as
    [(w & jar & Hrun & Hres & Hok) | (w & Hrun & Hres & Hko)];
    rewrite Hrun.
  - rewrite format_files_run. cbv zeta. rewrite Hfiles. cbn [is_empty_list].
    unfold with_events. cbn [fst snd events exit_status].
    split; [reflexivity|]. split; [|split].
    + intros args st Hin. apply in_app_or in Hin. destruct Hin as [Hin|Hin].
      * exact (resolution_only_no_call _ _ _ Hres Hin).
      * simpl in Hin. intuition discriminate.
    + intros _. split; [reflexivity|]. exists (events w). auto.
    + intros (url & path & Hin). exfalso. apply Hok.
      apply in_app_or in Hin. destruct Hin as [Hin|Hin].
      * exists url, path. exact Hin.
      * simpl in Hin. intuition discriminate.
  - cbn [fst snd exit_status]. split; [reflexivity|]. split; [|split].
    + intros args st Hin. exact (resolution_only_no_call _ _ _ Hres Hin).
    + intros Hok. contradiction.
    + intros _. auto.
Qed.

(** No argument, both artifacts installed: usage message and status 1. *)
Lemma no_file_argument_witness :
  status (Sample.invocation [] Sample.offline (Sample.children 0 0))
    Sample.installed = 1.
Proof.
  apply (no_file_argument_exit_1
           (Sample.invocation [] Sample.offline (Sample.children 0 0))
           Sample.installed).
  reflexivity.
Defined.

(** ** The filter of line 61 *)

Lemma remove_all_flags files :
  Forall flag_like files -> remove_command_line_arguments files = [].
Proof.
  induction 1 as [|f files Hf _ IH]; [reflexivity|].
  unfold remove_command_line_arguments in *. simpl.
  unfold flag_like in Hf. rewrite Hf. simpl. exact IH.
Qed.

(** C4, as stated, fails on a command line of [--help] alone, in two
    ways.  With nothing installed and no network, the download of the
    archive raises [IOError] at line 32: the formatter is never started
    and the exit status is 1.  With both artifacts installed but no
    [java] to start, [subprocess.call] raises [OSError] at line 53: the
    formatter step is attempted, and the exit status is 1. *)
Lemma only_flags_counterexample :
  let offline :=
    Sample.invocation ["--help"] Sample.offline (Sample.children 0 0) in
  let no_java :=
    Sample.invocation ["--help"] Sample.offline (fun _ => None) in
  (file_arguments offline = ["--help"] /\
   Forall flag_like (file_arguments offline) /\
   trace offline ∅ =
   [IsFile Sample.bin_jar false;
    IsFile "/home/u/plume-lib/lib/google-java-format-1.0-all-deps.jar" false;
    UrlRetrieve gjf_jar_url Sample.bin_jar false] /\
   (run offline ∅).2 = inl IOError /\
   status offline ∅ = 1 /\ wait_status (status offline ∅) = 1) /\
  (file_arguments no_java = ["--help"] /\
   Forall flag_like (file_arguments no_java) /\
   trace no_java Sample.installed =
   [IsFile Sample.bin_jar true;
    IsFile Sample.bin_fixup true;
    Call (formatter_args Sample.bin_jar ["--help"]) None] /\
   (run no_java Sample.installed).2 = inl OSError /\
   status no_java Sample.installed = 1 /\
   wait_status (status no_java Sample.installed) = 1).
Proof.
  cbv zeta. split.
  - split; [reflexivity|]. split; [repeat constructor|].
    repeat split; reflexivity.
  - split; [reflexivity|]. split; [repeat constructor|].
    repeat split; reflexivity.
Qed.

(** C4, amended.  On a command line of flag-like arguments (one or
    more), the fixup program is never started; and when no download
    fails and the formatter can be started, the formatter is called with
    all the arguments, this is the only subprocess and the last thing
    the driver does, and the driver leaves through [sys.exit(0)]. *)
Theorem only_flags_skip_fixup e d :
  file_arguments e <> [] -> Forall flag_like (file_arguments e) ->
  (forall args st, ~ In (Call (fixup_py e :: args) st) (trace e d)) /\
  (~ download_failed (trace e d) -> ~ launch_failed (trace e d) ->
   status e d = 0 /\
   (run e d).2 = inl (SystemExit 0) /\
   exists before jar rf,
     resolution_only before /\
     trace e d =
     before ++ [Call (formatter_args jar (file_arguments e)) (Some rf)]).
Proof.
  intros Hne Hflags. unfold status, trace.
  destruct (resolution_shape e d) as
    [(w & jar & Hrun & Hres & Hok) | (w & Hrun & Hres & Hko)];
    rewrite Hrun.
  - rewrite format_files_run. cbv zeta.
    rewrite (remove_all_flags _ Hflags).
    destruct (file_arguments e) as [|f files] eqn:Hfiles; [contradiction|].
    cbn [is_empty_list].
    destruct (call_result e (formatter_args jar (f :: files))) as [rf|].
    + split.
      * intros args st Hin. in_events Hin. event_eqs.
      * intros _ _. repeat split. exists (events w), jar, rf. auto.
    + split.
      * intros args st Hin. in_events Hin. event_eqs.
      * intros _ Hl. exfalso. apply Hl. eexists.
        unfold with_events. cbn [events fst]. apply in_or_app. right.
        left. reflexivity.
  - split.
    + intros args st Hin. exact (resolution_only_no_call _ _ _ Hres Hin).
    + intros Hd. contradiction.
Qed.

(** [--help] alone, both artifacts installed: the formatter runs, the
    fixup program does not, status 0. *)
Lemma only_flags_witness :
  status (Sample.invocation ["--help"] Sample.offline (Sample.children 2 0))
    Sample.installed = 0.
Proof.
  apply (only_flags_skip_fixup
           (Sample.invocation ["--help"] Sample.offline (Sample.children 2 0))
           Sample.installed).
  - discriminate.
  - repeat constructor.
  - intros (url & path & H). vm_compute in H.
    repeat (destruct H as [H|H]; [discriminate H|]). exact H.
  - intros (args & H). vm_compute in H.
    repeat (destruct H as [H|H]; [discriminate H|]). exact H.
Defined.

Lemma remove_command_line_arguments_cons f files :
  remove_command_line_arguments (f :: files) =
  if Py.startswith f "--"
  then remove_command_line_arguments files
  else f :: remove_command_line_arguments files.
Proof.
  unfold remove_command_line_arguments. simpl.
  destruct (Py.startswith f "--"); reflexivity.
Qed.

Lemma in_remove_command_line_arguments f files :
  In f (remove_command_line_arguments files) <->
  In f files /\ Py.startswith f "--" = false.
Proof.
  unfold remove_command_line_arguments. rewrite filter_In.
  rewrite negb_true_iff. reflexivity.
Qed.

(** C5. The filter of line 61 keeps a subsequence of its input, in the
    input's order, and filtering a second time changes nothing. *)
Theorem remove_command_line_arguments_sublist_idempotent (xs : list string) :
  sublist (remove_command_line_arguments xs) xs /\
  remove_command_line_arguments (remove_command_line_arguments xs) =
  remove_command_line_arguments xs.
Proof.
  induction xs as [|x xs [IHsub IHidem]].
  - split; [constructor | reflexivity].
  - rewrite remove_command_line_arguments_cons.
    destruct (Py.startswith x "--") eqn:Hx.
    + split; [apply sublist_cons; exact IHsub | exact IHidem].
    + split; [apply sublist_skip; exact IHsub |].
      rewrite remove_command_line_arguments_cons, Hx, IHidem. reflexivity.
Qed.

(** ** Artifact resolution *)

Lemma spec_probes_no_download d name dirs url path ok :
  ~ In (UrlRetrieve url path ok) (spec_probes d name dirs).
Proof.
  induction dirs as [|dir dirs IH]; simpl; [tauto|].
  case_bool_decide; simpl; intuition discriminate.
Qed.

(** C6. Each of the two look-ups probes its candidate directories in
    order, up to the first that holds the artifact, and takes that path;
    when there is one, the probes are all that happens (no download, the
    disk is as it was); when there is none, the probes are followed by a
    download.  The archive has two candidate directories, the fixup
    program one. *)
Theorem resolution_takes_first_match e w :
  match spec_first_match (disk w) gjf_jar_name (gjf_jar_candidates e) with
  | Some p =>
      set_gjf_jar_path e w =
      (with_events w (spec_probes (disk w) gjf_jar_name (gjf_jar_candidates e)),
       inr p)
  | None =>
      exists ok,
        events (set_gjf_jar_path e w).1 =
        events w ++
        spec_probes (disk w) gjf_jar_name (gjf_jar_candidates e) ++
        [UrlRetrieve gjf_jar_url (jar_in_script_dir e) ok]
  end /\
  match spec_first_match (disk w) fixup_py_name (fixup_py_candidates e) with
  | Some p =>
      p = fixup_py e /\
      fetch_fixup_py e w =
      (with_events w
         (spec_probes (disk w) fixup_py_name (fixup_py_candidates e)),
       inr tt)
  | None =>
      exists ok after,
        events (fetch_fixup_py e w).1 =
        events w ++
        spec_probes (disk w) fixup_py_name (fixup_py_candidates e) ++
        UrlRetrieve fixup_py_url (fixup_py e) ok :: after
  end /\
  forall name dirs url path ok,
    ~ In (UrlRetrieve url path ok) (spec_probes (disk w) name dirs).
Proof.
  split; [|split].
  - rewrite set_gjf_jar_path_run.
    unfold gjf_jar_candidates, jar_in_script_dir, jar_in_lib.
    cbn [spec_first_match spec_probes].
    change (Py.join (Py.join (Py.dirname (script_dir e)) ["lib"]) [gjf_jar_name])
      with (Py.join (Py.dirname (script_dir e)) ["lib"; gjf_jar_name]).
    repeat case_bool_decide; try reflexivity.
    destruct (urlretrieve_result e _ _); eexists; reflexivity.
  - rewrite fetch_fixup_py_run.
    unfold fixup_py_candidates, fixup_py, fixup_py_name.
    cbn [spec_first_match spec_probes].
    case_bool_decide; [split; reflexivity|].
    destruct (urlretrieve_result e _ _); eexists _, _; reflexivity.
  - intros. apply spec_probes_no_download.
Qed.

(** C7, as stated, fails for the fixup program: with a copy of it in the
    sibling [lib] directory only, the driver never looks there, and
    downloads it. *)
Lemma fixup_not_searched_in_lib_counterexample :
  let e := Sample.invocation ["A.java"] Sample.offline (Sample.children 0 0) in
  let e' := Sample.invocation ["A.java"] Sample.online (Sample.children 0 0) in
  Sample.lib_fixup = Py.join (Py.dirname (script_dir e)) ["lib"; fixup_py_name] /\
  is_Some (Sample.fixup_in_lib !! Sample.lib_fixup) /\
  trace e Sample.fixup_in_lib =
  [IsFile Sample.bin_jar true;
   IsFile Sample.bin_fixup false;
   UrlRetrieve fixup_py_url Sample.bin_fixup false] /\
  (run e Sample.fixup_in_lib).2 = inl IOError /\
  trace e' Sample.fixup_in_lib =
  [IsFile Sample.bin_jar true;
   IsFile Sample.bin_fixup false;
   UrlRetrieve fixup_py_url Sample.bin_fixup true;
   Chmod Sample.bin_fixup 33261;
   Call (formatter_args Sample.bin_jar ["A.java"]) (Some 0);
   Call [Sample.bin_fixup; "A.java"] (Some 0)].
Proof.
  cbv zeta. split; [reflexivity|]. split; [|vm_compute; auto].
  exists 33261. reflexivity.
Qed.

(** C7, amended.  The formatter archive is looked for next to the script,
    then in the sibling [lib] directory, and otherwise downloaded to the
    script's directory.  The fixup program is looked for next to the
    script only, and otherwise downloaded there (and made executable). *)
Theorem artifact_search_order e w :
  (let w' := (set_gjf_jar_path e w).1 in
   let r := (set_gjf_jar_path e w).2 in
   (events w' = events w ++ [IsFile (jar_in_script_dir e) true] /\
    r = inr (jar_in_script_dir e) /\ disk w' = disk w /\
    is_Some (disk w !! jar_in_script_dir e)) \/
   (events w' = events w ++ [IsFile (jar_in_script_dir e) false;
                             IsFile (jar_in_lib e) true] /\
    r = inr (jar_in_lib e) /\ disk w' = disk w /\
    is_Some (disk w !! jar_in_lib e)) \/
   (exists m,
      events w' = events w ++
                  [IsFile (jar_in_script_dir e) false;
                   IsFile (jar_in_lib e) false;
                   UrlRetrieve gjf_jar_url (jar_in_script_dir e) true] /\
      r = inr (jar_in_script_dir e) /\
      disk w' = <[jar_in_script_dir e := m]> (disk w)) \/
   (events w' = events w ++
                [IsFile (jar_in_script_dir e) false;
                 IsFile (jar_in_lib e) false;
                 UrlRetrieve gjf_jar_url (jar_in_script_dir e) false] /\
    r = inl IOError /\ disk w' = disk w)) /\
  (let w' := (fetch_fixup_py e w).1 in
   let r := (fetch_fixup_py e w).2 in
   fixup_py e = Py.join (script_dir e) [fixup_py_name] /\
   ((events w' = events w ++ [IsFile (fixup_py e) true] /\
     r = inr tt /\ disk w' = disk w /\ is_Some (disk w !! fixup_py e)) \/
    (exists m,
       events w' = events w ++
                   [IsFile (fixup_py e) false;
                    UrlRetrieve fixup_py_url (fixup_py e) true;
                    Chmod (fixup_py e)
                      (Z.lor (Z.lor (Z.lor m S_IXUSR) S_IXGRP) S_IXOTH)] /\
       r = inr tt /\
       disk w' = <[fixup_py e := chmod_x m]> (disk w)) \/
    (events w' = events w ++
                 [IsFile (fixup_py e) false;
                  UrlRetrieve fixup_py_url (fixup_py e) false] /\
     r = inl IOError /\ disk w' = disk w))).
Proof.
  cbv zeta. split.
  - rewrite set_gjf_jar_path_run.
    repeat case_bool_decide; [tauto | tauto |].
    destruct (urlretrieve_result e _ _) as [m|]; [|tauto].
    right. right. left. exists m. auto.
  - split; [reflexivity|]. rewrite fetch_fixup_py_run.
    case_bool_decide; [tauto|].
    destruct (urlretrieve_result e _ _) as [m|]; [|tauto].
    right. left. exists m. auto.
Qed.

(** Lines 43-70 leave the disk alone and log only prints and calls. *)
Lemma format_files_frame e jar w :
  exists after,
    (format_files e jar w).1 = with_events w after /\
    Forall (fun ev => is_resolution ev = false) after.
Proof.
  format_cases; eexists; (split; [reflexivity | repeat constructor]).
Qed.

Lemma not_resolution_no_download after url path ok :
  Forall (fun ev => is_resolution ev = false) after ->
  ~ In (UrlRetrieve url path ok) after.
Proof.
  intros Hall Hin. rewrite List.Forall_forall in Hall.
  specialize (Hall _ Hin). discriminate.
Qed.

(** C8. When the fixup program has been downloaded, the download is
    followed at once by a [chmod] of the downloaded file to the mode it
    was created with, [m], or-ed with the three execute bits; and at the
    end of the run the file's mode has the bits of [m] and, in addition,
    bits 6, 3 and 0 (execute for owner, group and other), nothing else
    being changed. *)
Theorem downloaded_fixup_is_made_executable e d :
  In (UrlRetrieve fixup_py_url (fixup_py e) true) (trace e d) ->
  exists m before after,
    urlretrieve_result e fixup_py_url (fixup_py e) = Some m /\
    trace e d =
    before ++
    [UrlRetrieve fixup_py_url (fixup_py e) true;
     Chmod (fixup_py e) (Z.lor (Z.lor (Z.lor m S_IXUSR) S_IXGRP) S_IXOTH)] ++
    after /\
    exists m',
      disk (run e d).1 !! fixup_py e = Some m' /\
      m' = Z.lor m 73 /\
      forall i, 0 <= i ->
        Z.testbit m' i = Z.testbit m i || Z.eqb i 6 || Z.eqb i 3 || Z.eqb i 0.
Proof.
  unfold trace. rewrite run_blocks, set_gjf_jar_path_run.
  repeat first [ rewrite fetch_fixup_py_run | progress cbn beta iota
               | case_bool_decide | case_match ];
    simplify_eq;
    try match goal with
      | |- context [format_files ?e ?jar ?w] =>
          destruct (format_files_frame e jar w) as (after & -> & Hafter)
      end;
    unfold with_events, with_file, initial_world; cbn [events disk fst];
    intros Hin;
    repeat (apply in_app_or in Hin; destruct Hin as [Hin|Hin]);
    try (exfalso; exact (not_resolution_no_download _ _ _ _ Hafter Hin));
    simpl in Hin;
    repeat (destruct Hin as [Hin|Hin]; [try discriminate Hin|]);
    try contradiction.
  all: match goal with
       | |- exists m before after0,
             _ /\ (?pre ++ [?p; ?u; ?c]) ++ ?after = _ /\ _ =>
           eexists _, (pre ++ [p]), after
       end;
    (split; [reflexivity|]);
    (split; [rewrite <- !app_assoc; reflexivity|]);
    eexists; (split; [apply lookup_insert_eq|]);
    (split; [apply chmod_x_lor | intros i Hi; apply chmod_x_bits; exact Hi]).
Qed.

(** Nothing installed, downloads create files with mode 0o100644: the
    fixup program ends with mode 0o100755. *)
Lemma downloaded_fixup_witness :
  exists m before after,
    Sample.online fixup_py_url Sample.bin_fixup = Some m /\
    trace (Sample.invocation ["A.java"] Sample.online (Sample.children 0 0)) ∅ =
    before ++
    [UrlRetrieve fixup_py_url Sample.bin_fixup true;
     Chmod Sample.bin_fixup (Z.lor (Z.lor (Z.lor m S_IXUSR) S_IXGRP) S_IXOTH)] ++
    after /\
    exists m',
      disk (run (Sample.invocation ["A.java"] Sample.online
                   (Sample.children 0 0)) ∅).1 !! Sample.bin_fixup = Some m' /\
      m' = Z.lor m 73 /\
      forall i, 0 <= i ->
        Z.testbit m' i = Z.testbit m i || Z.eqb i 6 || Z.eqb i 3 || Z.eqb i 0.
Proof.
  apply (downloaded_fixup_is_made_executable
           (Sample.invocation ["A.java"] Sample.online (Sample.children 0 0))
           ∅).
  vm_compute. tauto.
Defined.

Example downloaded_fixup_mode :
  disk (run (Sample.invocation ["A.java"] Sample.online
               (Sample.children 0 0)) ∅).1 !! Sample.bin_fixup = Some 33261.
Proof. reflexivity. Qed.


(** C9. The arguments of the fixup subprocess, whenever it is started,
    are the file arguments that do not begin with the two characters
    [--], all of them and in their order; so an argument such as [-h],
    with a single dash, is among them when it is on the command line. *)
Theorem single_dash_reaches_fixup e d args st :
  In (Call (fixup_py e :: args) st) (trace e d) ->
  args = remove_command_line_arguments (file_arguments e) /\
  (forall f, In f args <->
             In f (file_arguments e) /\ Py.startswith f "--" = false) /\
  Py.startswith "-h" "--" = false /\
  (In "-h" (file_arguments e) -> In "-h" args).
Proof.
  intros Hin.
  assert (Hargs : args = remove_command_line_arguments (file_arguments e)).
  { unfold trace in Hin.
    destruct (resolution_shape e d) as
      [(w & jar & Hrun & Hres & _) | (w & Hrun & Hres & _)];
      rewrite Hrun in Hin.
    - revert Hin. format_cases; intros Hin; in_events Hin; event_eqs;
        reflexivity.
    - exfalso. exact (resolution_only_no_call _ _ _ Hres Hin). }
  subst args. split; [reflexivity|]. split; [|split].
  - intros f. apply in_remove_command_line_arguments.
  - reflexivity.
  - intros Hh. apply in_remove_command_line_arguments. auto.
Qed.

(** [--help -h A.java]: the fixup program is called with [-h A.java]. *)
Lemma single_dash_witness :
  ["-h"; "A.java"] =
  remove_command_line_arguments
    (file_arguments
       (Sample.invocation ["--help"; "-h"; "A.java"] Sample.offline
          (Sample.children 0 0))).
Proof.
  apply (single_dash_reaches_fixup
           (Sample.invocation ["--help"; "-h"; "A.java"] Sample.offline
              (Sample.children 0 0))
           Sample.installed ["-h"; "A.java"] (Some 0)).
  vm_compute. tauto.
Defined.

Lemma append_inj_r s a b : String.append s a = String.append s b -> a = b.
Proof.
  induction s as [|c s IH]; simpl; intros H; [exact H|].
  injection H as H. exact (IH H).
Qed.

Lemma fixup_py_not_jar e : fixup_py e <> jar_in_script_dir e.
Proof.
  unfold fixup_py, jar_in_script_dir, Py.join. cbn [fold_left].
  unfold Py.join_step. cbn [Py.startswith String.prefix gjf_jar_name].
  simpl. destruct (_ || _); intros H; apply append_inj_r in H; discriminate H.
Qed.

(** C10. In every run the effects of artifact resolution (probes,
    downloads, chmod) all come before any print or subprocess call; and
    a run with no file argument, when neither artifact is installed and
    both downloads succeed, downloads both, makes the fixup program
    executable, and only then prints the usage message and exits with
    status 1, leaving the two new files on disk. *)
Theorem resolution_precedes_argument_check e d :
  (exists before after,
     trace e d = before ++ after /\
     resolution_only before /\
     Forall (fun ev => is_resolution ev = false) after) /\
  (file_arguments e = [] ->
   d !! jar_in_script_dir e = None ->
   d !! jar_in_lib e = None ->
   d !! fixup_py e = None ->
   forall mj mf,
     urlretrieve_result e gjf_jar_url (jar_in_script_dir e) = Some mj ->
     urlretrieve_result e fixup_py_url (fixup_py e) = Some mf ->
     trace e d =
     [IsFile (jar_in_script_dir e) false;
      IsFile (jar_in_lib e) false;
      UrlRetrieve gjf_jar_url (jar_in_script_dir e) true;
      IsFile (fixup_py e) false;
      UrlRetrieve fixup_py_url (fixup_py e) true;
      Chmod (fixup_py e) (Z.lor (Z.lor (Z.lor mf S_IXUSR) S_IXGRP) S_IXOTH);
      Print [usage_message]] /\
     status e d = 1 /\
     disk (run e d).1 =
     <[fixup_py e := chmod_x mf]> (<[jar_in_script_dir e := mj]> d)).
Proof.
  split.
  - unfold trace.
    destruct (resolution_shape e d) as
      [(w & jar & Hrun & Hres & _) | (w & Hrun & Hres & _)];
      rewrite Hrun.
    + destruct (format_files_frame e jar w) as (after & -> & Hafter).
      exists (events w), after. auto.
    + exists (events w), []. cbn [fst]. rewrite app_nil_r. auto.
  - intros Hfiles Hsd Hlib Hfix mj mf Hmj Hmf.
    assert (Hb1 : bool_decide (is_Some (d !! jar_in_script_dir e)) = false)
      by (rewrite Hsd; reflexivity).
    assert (Hb2 : bool_decide (is_Some (d !! jar_in_lib e)) = false)
      by (rewrite Hlib; reflexivity).
    assert (Hb3 : bool_decide
                    (is_Some (<[jar_in_script_dir e := mj]> d !! fixup_py e))
                  = false).
    { rewrite lookup_insert_ne
        by (intros H; exact (fixup_py_not_jar e (eq_sym H))).
      rewrite Hfix. reflexivity. }
    unfold trace, status. rewrite run_blocks, set_gjf_jar_path_run.
    cbn [initial_world disk]. rewrite Hb1, Hb2, Hmj. cbn beta iota.
    rewrite fetch_fixup_py_run. cbn [with_events with_file disk initial_world].
    rewrite Hb3, Hmf. cbn beta iota.
    rewrite format_files_run. cbv zeta. rewrite Hfiles.
    cbn [is_empty_list with_events with_file disk events fst snd exit_status].
    auto.
Qed.

(** No argument, nothing installed, network up. *)
Lemma resolution_precedes_witness :
  status (Sample.invocation [] Sample.online (Sample.children 0 0)) ∅ = 1.
Proof.
  refine (proj1 (proj2 (proj2 (resolution_precedes_argument_check
            (Sample.invocation [] Sample.online (Sample.children 0 0)) ∅)
            _ _ _ _ 33188 33188 _ _))).
  all: first [ apply lookup_empty | reflexivity ].
Defined.

(** * Further properties of the script *)

(** Case analysis on lines 25-41: ten ways for resolution to go, each
    with its world written out. *)
Ltac resolution_cases :=
  rewrite run_blocks, set_gjf_jar_path_run;
  repeat first [ rewrite fetch_fixup_py_run | progress cbn beta iota
               | case_bool_decide | case_match ];
  simplify_eq.

Lemma format_files_disk e jar w : disk (format_files e jar w).1 = disk w.
Proof.
  destruct (format_files_frame e jar w) as (after & -> & _). reflexivity.
Qed.

(** ** The disk *)

Lemma lookup_insert_absent (d : gmap string Z) k v p m :
  ~ is_Some (d !! k) -> d !! p = Some m -> <[k := v]> d !! p = Some m.
Proof.
  intros Hk Hp. destruct (decide (k = p)) as [->|Hne].
  - exfalso. apply Hk. rewrite Hp. eauto.
  - rewrite lookup_insert_ne by exact Hne. exact Hp.
Qed.

(** The driver's own writes: a file that is on disk when the driver
    starts is still there at the end with the mode it had, and only the
    two download targets can differ from what they were. *)
Theorem driver_never_overwrites e d :
  (forall p m, d !! p = Some m -> final_disk e d !! p = Some m) /\
  (forall p, p <> jar_in_script_dir e -> p <> fixup_py e ->
             final_disk e d !! p = d !! p).
Proof.
  unfold final_disk. resolution_cases; rewrite ?format_files_disk;
    unfold with_events, with_file, initial_world in *; cbn [disk fst] in *;
    (split; [intros p m Hp | intros p Hp1 Hp2]);
    try reflexivity; try exact Hp;
    rewrite ?lookup_insert_ne by congruence; try reflexivity; try exact Hp.
  all: repeat (apply lookup_insert_absent; [assumption|]); exact Hp.
Qed.


(** ** A second run *)

(** A run in which no download failed leaves both artifacts on disk. *)
Lemma artifacts_installed_after e d :
  ~ download_failed (trace e d) ->
  (is_Some (final_disk e d !! jar_in_script_dir e) \/
   is_Some (final_disk e d !! jar_in_lib e)) /\
  is_Some (final_disk e d !! fixup_py e).
Proof.
  unfold final_disk, trace. resolution_cases; rewrite ?format_files_disk;
    unfold with_events, with_file, initial_world in *; cbn [disk events fst] in *;
    intros Hok;
    rewrite ?lookup_insert_is_Some' in *; try tauto.
  all: exfalso; apply Hok; eexists _, _; simpl; eauto 10.
Qed.

(** With both artifacts on disk, a run downloads nothing, changes no
    mode, and leaves the disk as it found it. *)
Lemma installed_run_is_offline e d :
  is_Some (d !! jar_in_script_dir e) \/ is_Some (d !! jar_in_lib e) ->
  is_Some (d !! fixup_py e) ->
  (forall url path ok, ~ In (UrlRetrieve url path ok) (trace e d)) /\
  (forall path m, ~ In (Chmod path m) (trace e d)) /\
  final_disk e d = d.
Proof.
  intros Hjar Hfix. unfold final_disk, trace.
  resolution_cases; rewrite ?format_files_disk;
    unfold with_events, with_file, initial_world in *; cbn [disk events fst] in *;
    rewrite ?lookup_insert_is_Some' in *; try tauto.
  all: match goal with
       | |- context [format_files ?e ?jar ?w] =>
           destruct (format_files_frame e jar w) as (after & -> & Hall)
       end;
    unfold with_events; cbn [events fst];
    rewrite List.Forall_forall in Hall;
    (split; [|split; [|reflexivity]]); intros;
    (intros Hin; repeat (apply in_app_or in Hin; destruct Hin as [Hin|Hin]);
     [ simpl in Hin; intuition discriminate ..
     | specialize (Hall _ Hin); discriminate Hall ]).
Qed.

(** The downloads are a cache: after a run in which no download failed,
    any later run of the same script (whatever its arguments, and with
    or without network) downloads nothing, changes no mode, and leaves
    the disk as it is. *)
Theorem second_run_needs_no_download e e' d :
  script_path e' = script_path e ->
  ~ download_failed (trace e d) ->
  (forall url path ok,
     ~ In (UrlRetrieve url path ok) (trace e' (final_disk e d))) /\
  (forall path m, ~ In (Chmod path m) (trace e' (final_disk e d))) /\
  final_disk e' (final_disk e d) = final_disk e d.
Proof.
  intros Hpath Hok.
  destruct (artifacts_installed_after e d Hok) as [Hjar Hfix].
  apply installed_run_is_offline.
  - unfold jar_in_script_dir, jar_in_lib, script_dir in *.
    rewrite Hpath. exact Hjar.
  - unfold fixup_py, script_dir in *. rewrite Hpath. exact Hfix.
Qed.

(** First run on an empty disk with the network up, second run without
    network: the second run leaves the disk alone. *)
Lemma second_run_witness :
  final_disk
    (Sample.invocation ["B.java"] Sample.offline (Sample.children 0 0))
    (final_disk
       (Sample.invocation ["A.java"] Sample.online (Sample.children 0 0)) ∅)
  = final_disk
      (Sample.invocation ["A.java"] Sample.online (Sample.children 0 0)) ∅.
Proof.
  apply (second_run_needs_no_download
           (Sample.invocation ["A.java"] Sample.online (Sample.children 0 0))
           (Sample.invocation ["B.java"] Sample.offline (Sample.children 0 0))
           ∅).
  - reflexivity.
  - intros (url & path & H). vm_compute in H.
    repeat (destruct H as [H|H]; [discriminate H|]). exact H.
Defined.


(** ** How a run ends *)

Lemma remove_nil_all_flags files :
  remove_command_line_arguments files = [] -> Forall flag_like files.
Proof.
  induction files as [|f files IH]; [constructor|].
  rewrite remove_command_line_arguments_cons.
  destruct (Py.startswith f "--") eqn:Hf; [|discriminate].
  intros H. constructor; [exact Hf | exact (IH H)].
Qed.

(** The fixup step has nothing to do exactly when every argument begins
    with [--]; what it is given holds no such argument and is no longer
    than the command line. *)
Theorem nothing_left_iff_all_flags (files : list string) :
  (remove_command_line_arguments files = [] <-> Forall flag_like files) /\
  Forall (fun f => Py.startswith f "--" = false)
    (remove_command_line_arguments files) /\
  (length (remove_command_line_arguments files) <= length files)%nat.
Proof.
  split; [|split].
  - split; [apply remove_nil_all_flags | apply remove_all_flags].
  - apply List.Forall_forall. intros f Hf.
    apply in_remove_command_line_arguments in Hf. tauto.
  - induction files as [|f files IH]; [reflexivity|].
    rewrite remove_command_line_arguments_cons.
    destruct (Py.startswith f "--"); simpl; lia.
Qed.

(** The filter works argument by argument: filtering a concatenation is
    concatenating the filtered parts. *)
Theorem remove_command_line_arguments_app (xs ys : list string) :
  remove_command_line_arguments (xs ++ ys) =
  remove_command_line_arguments xs ++ remove_command_line_arguments ys.
Proof.
  induction xs as [|x xs IH]; [reflexivity|].
  rewrite <- app_comm_cons, !remove_command_line_arguments_cons, IH.
  destruct (Py.startswith x "--"); reflexivity.
Qed.

Ltac last_event :=
  unfold with_events; cbn [events fst snd];
  match goal with
  | |- exists before, ?l ++ [?a] = before ++ [_] => exists l; reflexivity
  | |- exists before, ?l ++ [?a; ?b] = before ++ [_] =>
      exists (l ++ [a]); rewrite <- app_assoc; reflexivity
  | |- exists before, ?l ++ [?a; ?b; ?c] = before ++ [_] =>
      exists (l ++ [a; b]); rewrite <- app_assoc; reflexivity
  end.

(** Every way the script can end, with its cause: the end of the script
    is reached only after the fixup program returned 0; [sys.exit] is
    called with 1 for an empty command line, with 0 for a command line
    of options only, and otherwise with the non-zero status of the
    fixup program; [IOError] comes from a failed download and [OSError]
    from a subprocess that could not be started. *)
Theorem how_a_run_ends e d :
  match (run e d).2 with
  | inr _ => fixup_returned e d 0
  | inl (SystemExit code) =>
      (code = 1 /\ file_arguments e = [] /\
       exists before, trace e d = before ++ [Print [usage_message]]) \/
      (code = 0 /\ file_arguments e <> [] /\
       Forall flag_like (file_arguments e)) \/
      (code <> 0 /\ fixup_returned e d code /\
       exists before, trace e d = before ++ [Print [fixup_error_message]])
  | inl IOError => download_failed (trace e d)
  | inl OSError => launch_failed (trace e d)
  end.
Proof.
  unfold fixup_returned, launch_failed, trace.
  destruct (resolution_shape e d) as
    [(w & jar & Hrun & Hres & _) | (w & Hrun & Hres & Hko)];
    rewrite Hrun; [|exact Hko].
  format_cases; cbn [snd]; subst; unfold with_events; cbn [events fst].
  all: try (left; split; [reflexivity|]; split; [reflexivity|]; last_event).
  all: try (right; left; split; [reflexivity|]; split; [discriminate|];
            apply remove_nil_all_flags; assumption).
  all: try (right; right; split; [assumption|]; split; [|last_event];
            eexists; apply in_or_app; right; right; left; reflexivity).
  all: eexists; apply in_or_app; right;
    first [ left; reflexivity | right; left; reflexivity ].
Qed.

(** The driver succeeds exactly when the formatter was started and
    returned (whatever it returned) and then either no argument was
    left for the fixup program or the fixup program returned 0. *)
Theorem success_iff e d :
  status e d = 0 <->
  (exists rf, formatter_returned e d rf) /\
  (remove_command_line_arguments (file_arguments e) = [] \/
   fixup_returned e d 0).
Proof.
  unfold formatter_returned, fixup_returned, status, trace.
  destruct (resolution_shape e d) as
    [(w & jar & Hrun & Hres & _) | (w & Hrun & Hres & _)];
    rewrite Hrun.
  - format_cases; cbn [snd fst exit_status]; subst;
      (split;
       [ intros Hst; try discriminate Hst; try contradiction
       | intros [(rf & jar' & files' & Hf) [Hnil | (files & Hin)]];
         try discriminate Hnil; try reflexivity;
         try (in_events Hf; event_eqs; fail);
         try (in_events Hin; event_eqs; try reflexivity; try contradiction) ]).
    all: split;
      [ eexists _, _, _; unfold with_events; cbn [events];
        apply in_or_app; right; left; reflexivity
      | first [ left; reflexivity
              | right; eexists; unfold with_events; cbn [events];
                apply in_or_app; right; right; left; reflexivity ] ].
  - cbn [snd fst exit_status]. split; [discriminate|].
    intros [(rf & jar' & files' & Hf) _]. exfalso.
    exact (resolution_only_no_call _ _ _ Hres Hf).
Qed.



(** ** [dirname] after [join] *)

Lemma append_nil_l s : String.append EmptyString s = s.
Proof. reflexivity. Qed.

Lemma append_cons c s t :
  String.append (String c s) t = String c (String.append s t).
Proof. reflexivity. Qed.

Lemma has_slash_append s t :
  Py.has_slash (String.append s t) = Py.has_slash s || Py.has_slash t.
Proof.
  induction s as [|c s IH]; [reflexivity|].
  rewrite append_cons. cbn [Py.has_slash]. rewrite IH. apply orb_assoc.
Qed.

Lemma all_slashes_append s t :
  Py.all_slashes (String.append s t) = Py.all_slashes s && Py.all_slashes t.
Proof.
  induction s as [|c s IH]; [reflexivity|].
  rewrite append_cons. cbn [Py.all_slashes]. rewrite IH. apply andb_assoc.
Qed.

Lemma upto_last_slash_plain name :
  Py.has_slash name = false -> Py.upto_last_slash name = EmptyString.
Proof. destruct name as [|c t]; [reflexivity|]. intros H. cbn. cbn in H. now rewrite H. Qed.

Lemma upto_last_slash_after_slash s name :
  Py.has_slash name = false ->
  Py.upto_last_slash (String.append s (String "/" name)) = String.append s "/".
Proof.
  intros Hname. induction s as [|c s IH].
  - rewrite !append_nil_l.
    change (Py.upto_last_slash (String "/" name))
      with (String "/" (Py.upto_last_slash name)).
    now rewrite (upto_last_slash_plain _ Hname).
  - rewrite !append_cons. cbn [Py.upto_last_slash]. rewrite IH.
    assert (Hs : Py.has_slash (String c (String.append s (String "/" name)))
                 = true).
    { cbn [Py.has_slash]. rewrite has_slash_append.
      change (Py.has_slash (String "/" name)) with true.
      now rewrite !orb_true_r. }
    rewrite Hs. reflexivity.
Qed.

Lemma upto_last_slash_after_slashes s name :
  Py.all_slashes s = true -> Py.has_slash name = false ->
  Py.upto_last_slash (String.append s name) = s.
Proof.
  intros Hs Hname. induction s as [|c s IH].
  - apply upto_last_slash_plain. exact Hname.
  - cbn in Hs. apply andb_true_iff in Hs as [Hc Hs].
    rewrite append_cons. cbn [Py.upto_last_slash Py.has_slash].
    rewrite Hc, (IH Hs). reflexivity.
Qed.

Lemma all_slashes_endswith_slash s :
  Py.all_slashes s = true -> s <> EmptyString -> Py.endswith_slash s = true.
Proof.
  induction s as [|c s IH]; [congruence|].
  intros H _. cbn in H. apply andb_true_iff in H as [Hc Hs].
  destruct s as [|c' s']; [exact Hc|].
  change (Py.endswith_slash (String c' s') = true).
  apply IH; [exact Hs | discriminate].
Qed.

Lemma rstrip_slash_slashes s :
  Py.all_slashes s = true -> Py.rstrip_slash s = EmptyString.
Proof. destruct s as [|c t]; [reflexivity|]. intros H. cbn [Py.rstrip_slash]. now rewrite H. Qed.

Lemma rstrip_slash_empty s :
  Py.rstrip_slash s = EmptyString -> Py.all_slashes s = true.
Proof.
  destruct s as [|c t]; [reflexivity|]. cbn [Py.rstrip_slash].
  destruct (Py.all_slashes (String c t)); [reflexivity | discriminate].
Qed.

Lemma rstrip_slash_after_slash s :
  Py.endswith_slash s = false -> s <> EmptyString ->
  Py.rstrip_slash (String.append s "/") = s.
Proof.
  induction s as [|c s IH]; [congruence|]. intros Hend _.
  assert (Hall : Py.all_slashes (String c (String.append s "/")) = false).
  { destruct (Py.all_slashes (String c (String.append s "/"))) eqn:E;
      [|reflexivity].
    change (Py.all_slashes (String.append (String c s) "/") = true) in E.
    rewrite all_slashes_append in E. apply andb_true_iff in E as [E _].
    rewrite (all_slashes_endswith_slash _ E) in Hend by discriminate.
    discriminate. }
  rewrite append_cons. cbn [Py.rstrip_slash]. rewrite Hall.
  destruct s as [|c' s'].
  - reflexivity.
  - f_equal. apply IH; [exact Hend | discriminate].
Qed.

Lemma rstrip_slash_no_trailing_slash s :
  Py.all_slashes s = false -> Py.endswith_slash (Py.rstrip_slash s) = false.
Proof.
  induction s as [|c s IH]; [discriminate|]. intros Hall.
  cbn [Py.rstrip_slash]. rewrite Hall.
  destruct (Py.rstrip_slash s) as [|c' r] eqn:Hr.
  - apply rstrip_slash_empty in Hr. cbn in Hall. rewrite Hr in Hall.
    rewrite andb_true_r in Hall. exact Hall.
  - change (Py.endswith_slash (String c' r) = false).
    apply IH. destruct (Py.all_slashes s) eqn:Hs; [|reflexivity].
    rewrite (rstrip_slash_slashes _ Hs) in Hr. discriminate.
Qed.

(** What [dirname] returns is empty, or all slashes, or has no slash at
    its end. *)
Lemma dirname_normal p :
  Py.all_slashes (Py.dirname p) = true \/
  Py.endswith_slash (Py.dirname p) = false.
Proof.
  unfold Py.dirname. cbv zeta.
  destruct (String.eqb_spec (Py.upto_last_slash p) EmptyString) as [->|Hne];
    [left; reflexivity|].
  destruct (Py.all_slashes (Py.upto_last_slash p)) eqn:Hall; cbn [negb andb].
  - left. exact Hall.
  - right. apply rstrip_slash_no_trailing_slash. exact Hall.
Qed.

(** [dirname] undoes [join] with a slash-free name, for a directory that
    is empty, all slashes, or without a slash at its end. *)
Lemma dirname_join_plain dir name :
  Py.all_slashes dir = true \/ Py.endswith_slash dir = false ->
  plain_name name ->
  Py.dirname (Py.join dir [name]) = dir.
Proof.
  unfold plain_name. intros Hdir Hname.
  assert (Hstart : Py.startswith name "/" = false).
  { destruct name as [|c t]; [reflexivity|]. cbn in Hname.
    apply orb_false_iff in Hname as [Hc _].
    unfold Py.startswith.
    change (String.prefix "/" (String c t))
      with (if Ascii.ascii_dec "/" c then String.prefix "" t else false).
    destruct (Ascii.ascii_dec "/" c) as [<-|]; [|reflexivity].
    rewrite Ascii.eqb_refl in Hc. discriminate Hc. }
  unfold Py.join. cbn [fold_left]. unfold Py.join_step. rewrite Hstart.
  destruct (String.eqb_spec dir EmptyString) as [->|Hne].
  - cbn [orb]. rewrite append_nil_l. unfold Py.dirname. cbv zeta.
    rewrite (upto_last_slash_plain _ Hname). reflexivity.
  - cbn [orb]. destruct (Py.endswith_slash dir) eqn:Hend.
    + destruct Hdir as [Hall|Hno]; [|discriminate].
      unfold Py.dirname. cbv zeta.
      rewrite (upto_last_slash_after_slashes _ _ Hall Hname), Hall.
      rewrite andb_false_r. reflexivity.
    + unfold Py.dirname. cbv zeta.
      rewrite (upto_last_slash_after_slash _ _ Hname).
      assert (Hnall : Py.all_slashes (String.append dir "/") = false).
      { rewrite all_slashes_append.
        destruct (Py.all_slashes dir) eqn:E; [|reflexivity].
        rewrite (all_slashes_endswith_slash _ E Hne) in Hend. discriminate. }
      rewrite Hnall.
      assert (Hnempty : String.eqb (String.append dir "/") EmptyString = false).
      { destruct dir; reflexivity. }
      rewrite Hnempty. cbn [negb andb].
      apply rstrip_slash_after_slash; assumption.
Qed.

Lemma endswith_slash_append s t :
  t <> EmptyString ->
  Py.endswith_slash (String.append s t) = Py.endswith_slash t.
Proof.
  intros Ht. induction s as [|c s IH]; [reflexivity|].
  rewrite append_cons. destruct (String.append s t) as [|c' r] eqn:E.
  - destruct s; [rewrite append_nil_l in E; contradiction | discriminate E].
  - exact IH.
Qed.

(** Where the script looks, relative to itself: the fixup program and
    the first archive candidate are files of the script's own directory,
    and the second archive candidate is a file of the directory [lib]
    whose parent is the parent of the script's directory.  This holds
    for every script path. *)
Theorem artifacts_live_beside_the_script e :
  Py.dirname (fixup_py e) = script_dir e /\
  Py.dirname (jar_in_script_dir e) = script_dir e /\
  Py.dirname (jar_in_lib e) = Py.join (Py.dirname (script_dir e)) ["lib"] /\
  Py.dirname (Py.dirname (jar_in_lib e)) = Py.dirname (script_dir e).
Proof.
  assert (Hlib : Py.dirname (jar_in_lib e) =
                 Py.join (Py.dirname (script_dir e)) ["lib"]).
  { change (jar_in_lib e)
      with (Py.join (Py.join (Py.dirname (script_dir e)) ["lib"])
              [gjf_jar_name]).
    apply dirname_join_plain; [|reflexivity].
    right. unfold Py.join. cbn [fold_left]. unfold Py.join_step.
    change (Py.startswith "lib" "/") with false. cbv iota.
    destruct (_ || _); rewrite endswith_slash_append by discriminate;
      reflexivity. }
  split; [|split; [|split]].
  - apply dirname_join_plain; [apply dirname_normal | reflexivity].
  - apply dirname_join_plain; [apply dirname_normal | reflexivity].
  - exact Hlib.
  - rewrite Hlib.
    apply dirname_join_plain; [apply dirname_normal | reflexivity].
Qed.

(** ** Subprocesses *)

Lemma resolved_jar_eq e d :
  resolved_jar e d =
  if bool_decide (is_Some (d !! jar_in_script_dir e))
  then jar_in_script_dir e
  else if bool_decide (is_Some (d !! jar_in_lib e))
       then jar_in_lib e
       else jar_in_script_dir e.
Proof.
  unfold resolved_jar, gjf_jar_candidates. cbn [spec_first_match].
  change (Py.join (Py.join (Py.dirname (script_dir e)) ["lib"]) [gjf_jar_name])
    with (jar_in_lib e).
  change (Py.join (script_dir e) [gjf_jar_name]) with (jar_in_script_dir e).
  repeat case_bool_decide; reflexivity.
Qed.

(** No subprocess is started before both artifacts are on disk; the only
    two command lines are the formatter's, with the resolved archive and
    every file argument, and the fixup program's, with the filtered
    arguments; and none is started for an empty command line. *)
Theorem subprocesses_find_their_artifacts e d args st :
  In (Call args st) (trace e d) ->
  is_Some (final_disk e d !! resolved_jar e d) /\
  is_Some (final_disk e d !! fixup_py e) /\
  file_arguments e <> [] /\
  (args = formatter_args (resolved_jar e d) (file_arguments e) \/
   args = fixup_py e :: remove_command_line_arguments (file_arguments e) /\
   remove_command_line_arguments (file_arguments e) <> []).
Proof.
  unfold final_disk, trace. rewrite resolved_jar_eq.
  resolution_cases; rewrite ?format_files_disk;
    unfold with_events, with_file, initial_world in *;
    cbn [disk events fst] in *;
    try (intros Hin; exfalso; simpl in Hin; intuition discriminate).
  all: rewrite ?lookup_insert_is_Some' in *.
  all: format_cases; unfold with_events; cbn [events fst]; intros Hin;
    repeat (apply in_app_or in Hin; destruct Hin as [Hin|Hin]);
    try (exfalso; simpl in Hin; intuition discriminate).
  all: (split; [tauto|]); (split; [tauto|]); (split; [discriminate|]).
  all: simpl in Hin; event_eqs;
    first [ left; reflexivity | right; split; [reflexivity | discriminate] ].
Qed.

(** [--help A.java] with both artifacts installed. *)
Lemma subprocesses_witness :
  is_Some (final_disk
             (Sample.invocation ["--help"; "A.java"] Sample.offline
                (Sample.children 0 0)) Sample.installed
           !! resolved_jar
                (Sample.invocation ["--help"; "A.java"] Sample.offline
                   (Sample.children 0 0)) Sample.installed).
Proof.
  apply (subprocesses_find_their_artifacts
           (Sample.invocation ["--help"; "A.java"] Sample.offline
              (Sample.children 0 0))
           Sample.installed [Sample.bin_fixup; "A.java"] (Some 0)).
  vm_compute. tauto.
Defined.



(** The driver prints at most one message, as the last thing it does,
    and it is the usage message or the fixup error message: the debug
    prints never happen. *)
Theorem at_most_one_message e d args :
  In (Print args) (trace e d) ->
  (args = [usage_message] \/ args = [fixup_error_message]) /\
  exists before,
    trace e d = before ++ [Print args] /\
    forall a, ~ In (Print a) before.
Proof.
  intros Hin. unfold trace in *.
  destruct (resolution_shape e d) as
    [(w & jar & Hrun & Hres & _) | (w & Hrun & Hres & _)];
    rewrite Hrun in *.
  - revert Hin. format_cases; intros Hin; in_events Hin;
      repeat (destruct Hin as [Hin|Hin]; try discriminate Hin);
      try contradiction;
      injection Hin as <-;
      (split; [tauto|]); unfold with_events; cbn [events fst].
    all: match goal with
         | |- exists before, ?l ++ [?a] = _ /\ _ =>
             exists l; split; [reflexivity|];
             intros a' Ha; exact (resolution_only_no_print _ _ Hres Ha)
         | |- exists before, ?l ++ [?a; ?b; ?c] = _ /\ _ =>
             exists (l ++ [a; b]); rewrite <- app_assoc;
             split; [reflexivity|];
             intros a' Ha; apply in_app_or in Ha; destruct Ha as [Ha|Ha];
             [ exact (resolution_only_no_print _ _ Hres Ha)
             | simpl in Ha; intuition discriminate ]
         end.
  - exfalso. exact (resolution_only_no_print _ _ Hres Hin).
Qed.

(** No argument, both artifacts installed: the usage message. *)
Lemma at_most_one_message_witness :
  [usage_message] = [usage_message] \/ [usage_message] = [fixup_error_message].
Proof.
  apply (at_most_one_message
           (Sample.invocation [] Sample.offline (Sample.children 0 0))
           Sample.installed [usage_message]).
  vm_compute. tauto.
Defined.

(** The fixup program is started at most once, right after the formatter
    has returned, and nothing is started after it. *)
Theorem fixup_runs_right_after_formatter e d args st :
  In (Call (fixup_py e :: args) st) (trace e d) ->
  exists before jar rf after,
    trace e d =
    before ++
    [Call (formatter_args jar (file_arguments e)) (Some rf);
     Call (fixup_py e :: args) st] ++ after /\
    resolution_only before /\
    forall a s, ~ In (Call a s) after.
Proof.
  intros Hin. unfold trace in *.
  destruct (resolution_shape e d) as
    [(w & jar & Hrun & Hres & _) | (w & Hrun & Hres & _)];
    rewrite Hrun in *.
  - revert Hin. format_cases; intros Hin; in_events Hin; event_eqs;
      unfold with_events; cbn [events fst].
    all: match goal with
         | |- exists before jar rf after, ?l ++ ?a :: ?b :: ?rest = _ /\ _ =>
             eexists l, jar, _, rest; split; [reflexivity|];
             split; [exact Hres|];
             intros a' s' Ha; simpl in Ha; intuition discriminate
         end.
  - exfalso. exact (resolution_only_no_call _ _ _ Hres Hin).
Qed.

(** The formatter fails with 1, the fixup program with 3. *)
Lemma fixup_runs_right_after_formatter_witness :
  exists before jar rf after,
    trace (Sample.invocation ["A.java"] Sample.offline (Sample.children 1 3))
      Sample.installed =
    before ++
    [Call (formatter_args jar ["A.java"]) (Some rf);
     Call [Sample.bin_fixup; "A.java"] (Some 3)] ++ after /\
    resolution_only before /\
    forall a s, ~ In (Call a s) after.
Proof.
  apply (fixup_runs_right_after_formatter
           (Sample.invocation ["A.java"] Sample.offline (Sample.children 1 3))
           Sample.installed ["A.java"] (Some 3)).
  vm_compute. tauto.
Defined.

(** The only [chmod] the driver ever does is on a fixup program it has
    just downloaded: a fixup program that was already installed keeps
    its mode, executable or not. *)
Theorem chmod_only_after_download e d path m :
  In (Chmod path m) (trace e d) ->
  path = fixup_py e /\
  d !! fixup_py e = None /\
  In (UrlRetrieve fixup_py_url (fixup_py e) true) (trace e d) /\
  exists m0,
    urlretrieve_result e fixup_py_url (fixup_py e) = Some m0 /\
    m = Z.lor (Z.lor (Z.lor m0 S_IXUSR) S_IXGRP) S_IXOTH.
Proof.
  unfold trace. resolution_cases;
    try match goal with
      | |- context [format_files ?e ?jar ?w] =>
          destruct (format_files_frame e jar w) as (after & -> & Hall);
          rewrite List.Forall_forall in Hall
      end;
    unfold with_events, with_file, initial_world in *;
    cbn [disk events fst] in *;
    rewrite ?lookup_insert_is_Some' in *;
    intros Hin;
    repeat (apply in_app_or in Hin; destruct Hin as [Hin|Hin]);
    try (specialize (Hall _ Hin); discriminate Hall);
    simpl in Hin;
    repeat (destruct Hin as [Hin|Hin]; try discriminate Hin);
    try contradiction;
    injection Hin as <- <-;
    (split; [reflexivity|]);
    (split; [apply eq_None_not_Some; first [assumption | naive_solver]|]);
    (split; [|eexists; split; reflexivity]);
    apply in_or_app; left; apply in_or_app; right; simpl; tauto.
Qed.

(** Nothing installed, network up. *)
Lemma chmod_only_after_download_witness :
  Sample.bin_fixup =
  fixup_py (Sample.invocation ["A.java"] Sample.online (Sample.children 0 0)).
Proof.
  apply (chmod_only_after_download
           (Sample.invocation ["A.java"] Sample.online (Sample.children 0 0))
           ∅ Sample.bin_fixup 33261).
  vm_compute. tauto.
Defined.
